(** * Verification of the safety-judge permission engine

    Shallow embedding of [plugins/safety-judge/hooks/safety_judge.py]:
    rule parsing, the per-tool pattern matcher, the catastrophe denylist,
    the layered settings merge and the decision engine
    [enforce_permissions].  Python strings are modelled as Rocq [string]s
    (ASCII); the regular expressions the module uses are modelled by a small
    backtracking matcher over character predicates, with Python's [re]
    semantics for [.] (no newline unless DOTALL), [$] (end of string or
    before a final newline) and [re.IGNORECASE]. *)

From Stdlib Require Import Ascii String List Bool Arith Lia.
From stdpp Require Import base gmap strings.
Import ListNotations.
Open Scope string_scope.

(* ------------------------------------------------------------------ *)
(** ** Characters and Python string helpers *)

Definition chars (s : string) : list ascii := list_ascii_of_string s.
Definition of_chars (l : list ascii) : string := string_of_list_ascii l.

Definition ceq (a b : ascii) : bool := Ascii.eqb a b.

Definition in_range (lo hi : nat) (c : ascii) : bool :=
  Nat.leb lo (nat_of_ascii c) && Nat.leb (nat_of_ascii c) hi.

(** Python's [str.isspace] / regex [\s] restricted to ASCII:
    [\t \n \v \f \r], the separators [\x1c]-[\x1f] and the space. *)
Definition is_space (c : ascii) : bool := in_range 9 13 c || in_range 28 32 c.

(** Regex [\w] on ASCII: letters, digits and underscore. *)
Definition is_word (c : ascii) : bool :=
  in_range 65 90 c || in_range 97 122 c || in_range 48 57 c || ceq c "_"%char.

Definition is_newline (c : ascii) : bool := ceq c "010"%char.

Definition lower (c : ascii) : ascii :=
  if in_range 65 90 c then ascii_of_nat (nat_of_ascii c + 32) else c.

(** [str.strip()]: drop leading and trailing whitespace. *)
Fixpoint lstrip (l : list ascii) : list ascii :=
  match l with
  | c :: l' => if is_space c then lstrip l' else l
  | [] => []
  end.

Definition strip (s : string) : list ascii := rev (lstrip (rev (lstrip (chars s)))).

(** [s.startswith(p)] *)
Fixpoint startswith (s p : list ascii) : bool :=
  match p, s with
  | [], _ => true
  | c :: p', d :: s' => ceq c d && startswith s' p'
  | _ :: _, [] => false
  end.

(** [p in s] for strings: substring test. *)
Fixpoint contains (s p : list ascii) : bool :=
  startswith s p || match s with [] => false | _ :: s' => contains s' p end.

(** [dict.get(k, "")] on a string-valued mapping. *)
Definition get_str (d : gmap string string) (k : string) : string :=
  default "" (d !! k).

(* ------------------------------------------------------------------ *)
(** ** A backtracking model of the regular expressions used

    Every pattern in the module is a sequence of single-character
    items, starred items ([x*], [x+] = [x x*]) and the [$] anchor. *)

Inductive item : Type :=
| One (p : ascii -> bool)     (* one character satisfying p *)
| Many (p : ascii -> bool)    (* zero or more such characters *)
| End                         (* Python's [$] *)
| Eos.                        (* Python's [\Z]: the very end *)

(** [$] without MULTILINE: end of string, or just before a final newline. *)
Definition at_end (s : list ascii) : bool :=
  match s with
  | [] => true
  | [c] => is_newline c
  | _ => false
  end.

(** Does the item sequence match a prefix of [s] ([re.match] semantics)? *)
Fixpoint rmatch (ps : list item) (s : list ascii) : bool :=
  match ps with
  | [] => true
  | One p :: ps' =>
      match s with
      | c :: s' => p c && rmatch ps' s'
      | [] => false
      end
  | Many p :: ps' =>
      (fix go (s : list ascii) : bool :=
         rmatch ps' s ||
         match s with
         | c :: s' => p c && go s'
         | [] => false
         end) s
  | End :: ps' => at_end s && rmatch ps' s
  | Eos :: ps' => match s with [] => rmatch ps' s | _ :: _ => false end
  end.

(** [re.search]: a match starting at some position. *)
Fixpoint rsearch (ps : list item) (s : list ascii) : bool :=
  rmatch ps s || match s with [] => false | _ :: s' => rsearch ps s' end.

(** Regex building blocks. *)
Definition any_nl (c : ascii) : bool := negb (is_newline c).   (* [.] *)
Definition lit (c : ascii) : item := One (ceq c).
Definition ilit (c : ascii) : item := One (fun x => ceq (lower x) (lower c)).
Definition ilits (s : string) : list item := map ilit (chars s).
Definition sp_plus : list item := [One is_space; Many is_space].   (* [\s+] *)
Definition sp_star : list item := [Many is_space].                 (* [\s*] *)
Definition dot_star : list item := [Many any_nl].                  (* [.*] *)

(* ------------------------------------------------------------------ *)
(** ** [RegexDenylist] *)

Module RegexDenylist.

(** [PATTERNS], in order, each compiled with [re.IGNORECASE]. *)
Definition PATTERNS : list (list item * string) :=
  [ ((ilits "rm" ++ sp_plus ++ ilits "-rf" ++ sp_plus ++ ilits "/")%list,
       "Recursive delete from root");
    ((ilits "rm" ++ sp_plus ++ ilits "-rf" ++ sp_plus ++ ilits "~")%list,
       "Recursive delete from home");
    ((ilits "rm" ++ sp_plus ++ ilits "-rf" ++ sp_plus ++ ilits "." ++ sp_star ++ [End])%list,
       "Recursive delete current directory");
    ((ilits "DROP" ++ sp_plus ++ ilits "DATABASE")%list, "SQL database drop");
    ((ilits "TRUNCATE" ++ sp_plus ++ ilits "TABLE")%list, "SQL table truncation");
    ((ilits ":(){" ++ dot_star ++ ilits ":|:&" ++ dot_star ++ ilits "};:")%list, "Fork bomb");
    ((ilits ">" ++ sp_star ++ ilits "/dev/sd" ++ [One (fun x => in_range 97 122 (lower x))])%list,
       "Direct disk write");
    ((ilits "mkfs.")%list, "Filesystem format");
    ((ilits "dd" ++ sp_plus ++ dot_star ++ ilits "of=/dev/")%list, "Raw disk overwrite") ].

(** [RegexDenylist.check]: the reason of the first pattern found by
    [re.search], or [None]. *)
Fixpoint check_in (pats : list (list item * string)) (command : string) : option string :=
  match pats with
  | [] => None
  | (pat, reason) :: rest =>
      if rsearch pat (chars command) then Some reason else check_in rest command
  end.

Definition check (command : string) : option string := check_in PATTERNS command.

End RegexDenylist.

(* ------------------------------------------------------------------ *)
(** ** [PermissionMatcher] *)

Module PermissionMatcher.

Fixpoint span_word (l : list ascii) : list ascii * list ascii :=
  match l with
  | c :: l' => if is_word c then let '(w, r) := span_word l' in (c :: w, r) else ([], l)
  | [] => ([], [])
  end.

(** The optional tail of the rule regex, an escaped parenthesis, a DOTALL
    group and a closing parenthesis before [$], taken after the opening
    parenthesis: the greedy group is everything up to the closing
    parenthesis that [$] accepts (at the end, or before a final newline). *)
Definition close_paren (r : list ascii) : option (list ascii) :=
  match rev r with
  | ")"%char :: p => Some (rev p)
  | "010"%char :: ")"%char :: p => Some (rev p)
  | _ => None
  end.

(** [parse_rule]: [re.match] of the rule regex (a word, then an optional
    parenthesised DOTALL group, then [$]) on [rule.strip()].
    [\w+] cannot give back characters usefully: a shorter word is followed
    by a word character, which is neither [(] nor an end. *)
Definition parse_rule (rule : string) : string * option string :=
  let s := strip rule in
  let '(w, rest) := span_word s in
  match w with
  | [] => (of_chars s, None)
  | _ :: _ =>
      if at_end rest then (of_chars w, None)
      else match rest with
           | "("%char :: r =>
               match close_paren r with
               | Some p => (of_chars w, Some (of_chars p))
               | None => (of_chars s, None)
               end
           | _ => (of_chars s, None)
           end
  end.

(** [_normalize_bash_pattern]: a lazy non-empty group followed by
    a colon, a star and [$]; the
    group is non-empty and, without DOTALL, holds no newline. *)
Definition normalize_group (g : list ascii) (l : list ascii) : list ascii :=
  match g with
  | [] => l
  | _ :: _ => if forallb any_nl g then (g ++ chars " *")%list else l
  end.

Definition _normalize_bash_pattern (pattern : string) : string :=
  let l := chars pattern in
  of_chars
    match rev l with
    | "*"%char :: ":"%char :: g => normalize_group (rev g) l
    | "010"%char :: "*"%char :: ":"%char :: g => normalize_group (rev g) l
    | _ => l
    end.

(** The regex built char by char: [*] becomes [.*], anything else its
    [re.escape]d literal; anchored by [^] and [$]. *)
Definition glob_item (c : ascii) : item :=
  if ceq c "*"%char then Many any_nl else lit c.

Definition _bash_pattern_matches (command pattern : string) : bool :=
  let pattern := _normalize_bash_pattern pattern in
  if String.eqb pattern "*" then true
  else rmatch (map glob_item (chars pattern) ++ [End])%list (chars command).

(** [fnmatch.fnmatch] on POSIX ([normcase] is the identity): the pattern
    is translated by [fnmatch.translate] into a DOTALL regex matched up to
    [\Z].  [*] is any run, [?] any character, [[seq]] and [[!seq]] a
    character class with ranges [a-b]; a [[] without its closing bracket
    is a literal. *)
Fixpoint split_class (l : list ascii) : option (list ascii * list ascii) :=
  match l with
  | [] => None
  | c :: l' =>
      if ceq c "]"%char then Some ([], l')
      else match split_class l' with
           | Some (a, b) => Some (c :: a, b)
           | None => None
           end
  end.

Fixpoint class_ranges (l : list ascii) : list (ascii * ascii) :=
  match l with
  | a :: "-"%char :: b :: t => (a, b) :: class_ranges t
  | a :: t => (a, a) :: class_ranges t
  | [] => []
  end.

Definition in_class (rs : list (ascii * ascii)) (c : ascii) : bool :=
  existsb (fun '(lo, hi) => in_range (nat_of_ascii lo) (nat_of_ascii hi) c) rs.

(** The bracket expression after a [[]: [Some (item, rest)] or [None]
    when it is not closed. *)
Definition bracket (l : list ascii) : option (item * list ascii) :=
  let '(neg, l1) := match l with
                    | "!"%char :: t => (true, t)
                    | _ => (false, l)
                    end in
  let body := match l1 with
              | "]"%char :: t =>
                  match split_class t with
                  | Some (a, b) => Some ("]"%char :: a, b)
                  | None => None
                  end
              | _ => split_class l1
              end in
  match body with
  | Some (stuff, rest) =>
      let rs := class_ranges stuff in
      Some (One (fun c => if neg then negb (in_class rs c) else in_class rs c), rest)
  | None => None
  end.

Fixpoint translate_fuel (fuel : nat) (l : list ascii) : list item :=
  match fuel with
  | 0 => []
  | S fuel' =>
      match l with
      | [] => []
      | c :: t =>
          if ceq c "*"%char then Many (fun _ => true) :: translate_fuel fuel' t
          else if ceq c "?"%char then One (fun _ => true) :: translate_fuel fuel' t
          else if ceq c "["%char then
            match bracket t with
            | Some (it, rest) => it :: translate_fuel fuel' rest
            | None => lit c :: translate_fuel fuel' t
            end
          else lit c :: translate_fuel fuel' t
      end
  end.

Definition translate (pat : string) : list item :=
  (translate_fuel (String.length pat) (chars pat) ++ [Eos])%list.

Definition fnmatch (name pat : string) : bool := rmatch (translate pat) (chars name).

(** [os.path.basename]: the part after the last [/]. *)
Fixpoint upto_slash (l : list ascii) : list ascii :=
  match l with
  | c :: t => if ceq c "/"%char then [] else c :: upto_slash t
  | [] => []
  end.

Definition basename (p : string) : string := of_chars (rev (upto_slash (rev (chars p)))).

Definition is_path_tool (t : string) : bool :=
  existsb (String.eqb t) ["Read"; "Edit"; "Write"; "Glob"; "Grep"].

(** [matches_rule] *)
Definition matches_rule (tool_name : string) (tool_input : gmap string string)
    (rule : string) : bool :=
  let '(rule_tool, rule_pattern) := parse_rule rule in
  if negb (String.eqb rule_tool tool_name) then false
  else
    match rule_pattern with
    | None => true
    | Some pat =>
        if String.eqb tool_name "Bash" then
          _bash_pattern_matches (get_str tool_input "command") pat
        else if String.eqb tool_name "WebFetch" then
          if startswith (chars pat) (chars "domain:") then
            let domain := skipn 7 (chars pat) in
            let url := get_str tool_input "url" in
            contains (chars url) domain
          else false
        else if String.eqb tool_name "WebSearch" then true
        else if is_path_tool tool_name then
          let file_path := match tool_input !! "file_path" with
                           | Some v => v
                           | None => get_str tool_input "path"
                           end in
          if String.eqb file_path "" || String.eqb pat "" then false
          else fnmatch file_path pat || fnmatch (basename file_path) pat
        else false
    end.

End PermissionMatcher.

(* ------------------------------------------------------------------ *)
(** ** [SettingsLoader] *)

Module SettingsLoader.

(** A parsed settings document: its optional ["permissions"] object,
    mapping bucket names to arrays of rule strings. *)
Record SettingsDocument := { permissions : option (gmap string (list string)) }.

(** What [open] and [json.load] give for an existing settings file. *)
Inductive settings_file :=
| Malformed                          (* JSONDecodeError or OSError *)
| Parsed (doc : SettingsDocument).

(** [find_settings_files]: the existing candidates, in priority order
    (highest first); a candidate is [None] when the path does not exist. *)
Fixpoint find_settings_files (candidates : list (option settings_file)) : list settings_file :=
  match candidates with
  | [] => []
  | Some f :: cs => f :: find_settings_files cs
  | None :: cs => find_settings_files cs
  end.

Definition merged0 : gmap string (list string) :=
  <["allow" := []]> (<["deny" := []]> (<["ask" := []]> ∅)).

Definition bucket (m : gmap string (list string)) (key : string) : list string :=
  default [] (m !! key).

(** [for key in ("allow", "deny", "ask"): if key in perms:
       merged[key] = perms[key] + merged[key]] *)
Definition merge_key (perms : gmap string (list string))
    (merged : gmap string (list string)) (key : string) : gmap string (list string) :=
  match perms !! key with
  | Some l => <[key := (l ++ bucket merged key)%list]> merged
  | None => merged
  end.

Definition merge_file (merged : gmap string (list string)) (f : settings_file)
    : gmap string (list string) :=
  match f with
  | Malformed => merged        (* warning printed, nothing contributed *)
  | Parsed doc =>
      let perms := default ∅ (permissions doc) in
      fold_left (merge_key perms) ["allow"; "deny"; "ask"] merged
  end.

(** [load_permissions]: the files are visited in reverse priority order,
    each prepending its rules. *)
Definition load_permissions (candidates : list (option settings_file))
    : gmap string (list string) :=
  fold_left merge_file (rev (find_settings_files candidates)) merged0.

(** The rules one file contributes to a bucket. *)
Definition contribution (key : string) (f : settings_file) : list string :=
  match f with
  | Malformed => []
  | Parsed doc => bucket (default ∅ (permissions doc)) key
  end.

End SettingsLoader.

(* ------------------------------------------------------------------ *)
(** ** [LLMJudge] and [enforce_permissions] *)

Inductive decision := Allow | Deny | Ask.

(** The judge as [enforce_permissions] sees it: [available] and the
    result [(is_safe, reason, risk_level)] of [judge(tool_name, tool_input)]
    (a remote call, hence a parameter of the model). *)
Record LLMJudge := {
  available : bool;
  judge : string -> gmap string string -> bool * string * string
}.

(** The first rule of a bucket that matches, as the [for ... if ...: return]
    loops find it. *)
Fixpoint first_match (f : string -> bool) (rules : list string) : option string :=
  match rules with
  | [] => None
  | r :: rs => if f r then Some r else first_match f rs
  end.

Definition get_rules (permissions : gmap string (list string)) (key : string) : list string :=
  default [] (permissions !! key).

Definition enforce_permissions (tool_name : string) (tool_input : gmap string string)
    (permissions : gmap string (list string)) (llm_judge : LLMJudge) : decision * string :=
  let m := PermissionMatcher.matches_rule tool_name tool_input in
  (* Step 1: Regex denylist *)
  let danger := if String.eqb tool_name "Bash"
                then RegexDenylist.check (get_str tool_input "command") else None in
  match danger with
  | Some d => (Deny, "Blocked by safety denylist: " ++ d)
  | None =>
  (* Step 2: deny rules *)
  match first_match m (get_rules permissions "deny") with
  | Some rule => (Deny, "Blocked by deny rule: " ++ rule)
  | None =>
  (* Step 3: allow rules, with the judge as safety net *)
  match first_match m (get_rules permissions "allow") with
  | Some rule =>
      if available llm_judge then
        let '(is_safe, reason, risk_level) := judge llm_judge tool_name tool_input in
        if negb is_safe
        then (Ask, "LLM Judge flagged (" ++ risk_level ++ " risk): " ++ reason)
        else (Allow, "Approved by allow rule: " ++ rule)
      else (Allow, "Approved by allow rule: " ++ rule)
  | None =>
  (* Step 4: ask rules *)
  match first_match m (get_rules permissions "ask") with
  | Some rule => (Ask, "Requires approval per ask rule: " ++ rule)
  | None => (Ask, "No matching permission rule (default: ask)")
  end end end end.

(* ================================================================== *)
(** * Properties *)

(** Recognised tools of [matches_rule]'s dispatch. *)
Definition recognized_tool (t : string) : bool :=
  existsb (String.eqb t)
    ["Bash"; "WebFetch"; "WebSearch"; "Read"; "Edit"; "Write"; "Glob"; "Grep"].

(** A judge that is always reachable and returns a fixed verdict. *)
Definition fixed_judge (safe : bool) : LLMJudge :=
  {| available := true;
     judge := fun _ _ => (safe, "fixed verdict", "high") |}.

Definition no_judge : LLMJudge :=
  {| available := false; judge := fun _ _ => (true, "LLM judge unavailable", "unknown") |}.

Definition policy (allow deny ask : list string) : gmap string (list string) :=
  <["allow" := allow]> (<["deny" := deny]> (<["ask" := ask]> ∅)).

Definition input1 (k v : string) : gmap string string := <[k := v]> ∅.

(** ** Scenarios of the spec, evaluated on the model *)

Example scenario_rm_root :
  enforce_permissions "Bash" (input1 "command" "rm -rf /") (policy ["Bash(*)"] [] [])
    (fixed_judge true)
  = (Deny, "Blocked by safety denylist: Recursive delete from root").
Proof. reflexivity. Qed.

Example scenario_git_status :
  fst (enforce_permissions "Bash" (input1 "command" "git status")
         (policy ["Bash(git *)"] [] []) (fixed_judge true)) = Allow.
Proof. reflexivity. Qed.

Example scenario_webfetch :
  fst (enforce_permissions "WebFetch" (input1 "url" "https://github.com/x/y")
         (policy ["WebFetch(domain:github.com)"] [] []) no_judge) = Allow /\
  fst (enforce_permissions "WebFetch" (input1 "url" "https://evil.com")
         (policy ["WebFetch(domain:github.com)"] [] []) no_judge) = Ask.
Proof. split; reflexivity. Qed.

Section FirstMatch.
Variable f : string -> bool.

Lemma first_match_None (rules : list string) :
  forallb (fun r => negb (f r)) rules = true -> first_match f rules = None.
Proof.
  induction rules as [|r rs IH]; simpl; [done|].
  destruct (f r); simpl; [discriminate|]. exact IH.
Qed.

Lemma first_match_Some (rules : list string) :
  existsb f rules = true -> exists r, first_match f rules = Some r.
Proof.
  induction rules as [|r rs IH]; simpl; [discriminate|].
  destruct (f r); simpl; [eauto|]. exact IH.
Qed.

End FirstMatch.

(** Step 1 passes when the call is not a denylisted shell command. *)
Definition denylist_clear (tool_name : string) (tool_input : gmap string string) : Prop :=
  tool_name = "Bash" -> RegexDenylist.check (get_str tool_input "command") = None.

Lemma danger_None (tool_name : string) (tool_input : gmap string string) :
  denylist_clear tool_name tool_input ->
  (if String.eqb tool_name "Bash"
   then RegexDenylist.check (get_str tool_input "command") else None) = None.
Proof.
  unfold denylist_clear. intros H.
  destruct (String.eqb_spec tool_name "Bash") as [->|_]; [apply H|]; reflexivity.
Qed.

(** C1: a Bash command found by the denylist is denied, whatever the
    policy (even with an allow rule such as [Bash( * )] matching) and
    whatever the judge. *)
Theorem denylist_denies_regardless_of_rules
    (tool_input : gmap string string) (permissions : gmap string (list string))
    (llm_judge : LLMJudge) (danger : string) :
  RegexDenylist.check (get_str tool_input "command") = Some danger ->
  enforce_permissions "Bash" tool_input permissions llm_judge
  = (Deny, "Blocked by safety denylist: " ++ danger).
Proof. intros H. unfold enforce_permissions. simpl String.eqb. rewrite H. reflexivity. Qed.

Lemma denylist_denies_regardless_of_rules_witness :
  RegexDenylist.check "rm -rf /" = Some "Recursive delete from root" /\
  PermissionMatcher.matches_rule "Bash" (input1 "command" "rm -rf /") "Bash(*)" = true /\
  enforce_permissions "Bash" (input1 "command" "rm -rf /") (policy ["Bash(*)"] [] [])
    (fixed_judge true)
  = (Deny, "Blocked by safety denylist: Recursive delete from root").
Proof.
  split; [reflexivity|]. split; [reflexivity|].
  apply denylist_denies_regardless_of_rules. reflexivity.
Defined.

(** C5: once past the denylist, a matching deny rule denies, even when
    allow rules match too. *)
Theorem deny_rule_outranks_allow
    (tool_name : string) (tool_input : gmap string string)
    (permissions : gmap string (list string)) (llm_judge : LLMJudge) :
  denylist_clear tool_name tool_input ->
  existsb (PermissionMatcher.matches_rule tool_name tool_input)
    (get_rules permissions "deny") = true ->
  fst (enforce_permissions tool_name tool_input permissions llm_judge) = Deny.
Proof.
  intros Hd Hdeny. unfold enforce_permissions.
  rewrite (danger_None _ _ Hd).
  destruct (first_match_Some _ _ Hdeny) as [r ->]. reflexivity.
Qed.

Lemma deny_rule_outranks_allow_witness :
  fst (enforce_permissions "Bash" (input1 "command" "git push")
         (policy ["Bash(git *)"] ["Bash(git push*)"] []) (fixed_judge true)) = Deny.
Proof.
  apply deny_rule_outranks_allow; [|reflexivity].
  intros _. reflexivity.
Defined.

(** C4: an allow-matched call the available judge flags unsafe is asked
    about, never denied. *)
Theorem judge_unsafe_yields_ask
    (tool_name : string) (tool_input : gmap string string)
    (permissions : gmap string (list string)) (llm_judge : LLMJudge) :
  denylist_clear tool_name tool_input ->
  forallb (fun r => negb (PermissionMatcher.matches_rule tool_name tool_input r))
    (get_rules permissions "deny") = true ->
  existsb (PermissionMatcher.matches_rule tool_name tool_input)
    (get_rules permissions "allow") = true ->
  available llm_judge = true ->
  fst (fst (judge llm_judge tool_name tool_input)) = false ->
  fst (enforce_permissions tool_name tool_input permissions llm_judge) = Ask.
Proof.
  intros Hd Hdeny Hallow Hav Hunsafe. unfold enforce_permissions.
  rewrite (danger_None _ _ Hd), (first_match_None _ _ Hdeny).
  destruct (first_match_Some _ _ Hallow) as [r ->].
  rewrite Hav.
  destruct (judge llm_judge tool_name tool_input) as [[s reason] risk].
  simpl in Hunsafe. subst s. reflexivity.
Qed.

Lemma judge_unsafe_yields_ask_witness :
  fst (enforce_permissions "Bash"
         (input1 "command" "git push origin $(cat ~/.ssh/id_rsa | base64)")
         (policy ["Bash(git *)"] [] []) (fixed_judge false)) = Ask.
Proof.
  apply judge_unsafe_yields_ask; try reflexivity.
  intros _. reflexivity.
Defined.

(** C6: a call no rule of any bucket matches (and, for Bash, clear of
    the denylist) is asked about with the default reason. *)
Theorem no_rule_defaults_to_ask
    (tool_name : string) (tool_input : gmap string string)
    (permissions : gmap string (list string)) (llm_judge : LLMJudge) :
  denylist_clear tool_name tool_input ->
  (forall key, key = "allow" \/ key = "deny" \/ key = "ask" ->
     forallb (fun r => negb (PermissionMatcher.matches_rule tool_name tool_input r))
       (get_rules permissions key) = true) ->
  enforce_permissions tool_name tool_input permissions llm_judge
  = (Ask, "No matching permission rule (default: ask)").
Proof.
  intros Hd Hnone. unfold enforce_permissions.
  rewrite (danger_None _ _ Hd).
  rewrite (first_match_None _ _ (Hnone "deny" ltac:(auto))).
  rewrite (first_match_None _ _ (Hnone "allow" ltac:(auto))).
  rewrite (first_match_None _ _ (Hnone "ask" ltac:(auto))).
  reflexivity.
Qed.

Lemma no_rule_defaults_to_ask_witness :
  enforce_permissions "Bash" (input1 "command" "anything") ∅ (fixed_judge true)
  = (Ask, "No matching permission rule (default: ask)").
Proof.
  apply no_rule_defaults_to_ask.
  - intros _. reflexivity.
  - intros key [->|[->| ->]]; reflexivity.
Defined.

(** C9: any rule parsed with tool [WebSearch] matches every WebSearch
    call; a pattern, if any, is ignored. *)
Theorem websearch_rule_ignores_pattern
    (tool_input : gmap string string) (rule : string) (pattern : option string) :
  PermissionMatcher.parse_rule rule = ("WebSearch", pattern) ->
  PermissionMatcher.matches_rule "WebSearch" tool_input rule = true.
Proof.
  intros H. unfold PermissionMatcher.matches_rule. rewrite H.
  simpl. destruct pattern; reflexivity.
Qed.

Lemma websearch_rule_ignores_pattern_witness :
  PermissionMatcher.parse_rule "WebSearch(foo)" = ("WebSearch", Some "foo") /\
  PermissionMatcher.matches_rule "WebSearch" (input1 "query" "python docs")
    "WebSearch(foo)" = true.
Proof.
  split; [reflexivity|].
  apply (websearch_rule_ignores_pattern _ _ (Some "foo")). reflexivity.
Defined.

(** C10: for a tool outside the recognised set, a rule matches only when
    it parses as that bare tool name; a rule with a pattern never does. *)
Theorem unrecognized_tool_only_bare_rule
    (tool_name : string) (tool_input : gmap string string) (rule : string) :
  recognized_tool tool_name = false ->
  (forall pattern, snd (PermissionMatcher.parse_rule rule) = Some pattern ->
     PermissionMatcher.matches_rule tool_name tool_input rule = false) /\
  (PermissionMatcher.matches_rule tool_name tool_input rule = true ->
     PermissionMatcher.parse_rule rule = (tool_name, None)).
Proof.
  intros Hrec.
  unfold recognized_tool in Hrec. simpl in Hrec.
  repeat rewrite orb_false_iff in Hrec.
  destruct Hrec as (HB & HF & HS & HR & HE & HW & HG & HGr & _).
  assert (Hpath : PermissionMatcher.is_path_tool tool_name = false)
    by (unfold PermissionMatcher.is_path_tool; simpl;
        rewrite HR, HE, HW, HG, HGr; reflexivity).
  unfold PermissionMatcher.matches_rule.
  destruct (PermissionMatcher.parse_rule rule) as [rt [p|]]; simpl.
  - destruct (String.eqb_spec rt tool_name) as [->|Hne]; simpl.
    + rewrite HB, HF, HS, Hpath. split; [reflexivity|discriminate].
    + split; [reflexivity|discriminate].
  - destruct (String.eqb_spec rt tool_name) as [->|Hne]; simpl.
    + split; [discriminate|reflexivity].
    + split; [discriminate|discriminate].
Qed.

Lemma unrecognized_tool_only_bare_rule_witness :
  PermissionMatcher.matches_rule "NotebookEdit" (input1 "new_source" "x = 1")
    "NotebookEdit(*)" = false /\
  PermissionMatcher.matches_rule "NotebookEdit" (input1 "new_source" "x = 1")
    "NotebookEdit" = true.
Proof.
  split.
  - apply (proj1 (unrecognized_tool_only_bare_rule "NotebookEdit"
                    (input1 "new_source" "x = 1") "NotebookEdit(*)" eq_refl) "*").
    reflexivity.
  - reflexivity.
Defined.

(** C2 fails: the enforcement path never looks at the written content.
    A Write of a shell script holding [rm -rf /], and a notebook cell
    [!rm -rf /], both hit by the denylist's own patterns, are allowed
    outright by a bare allow rule, whether no judge is reachable or the
    judge finds the call safe. *)
Lemma write_script_content_not_scanned :
  RegexDenylist.check "#!/bin/bash
rm -rf /
echo done" = Some "Recursive delete from root" /\
  enforce_permissions "Write"
    (<["file_path" := "/tmp/cleanup.sh"]>
       (input1 "content" "#!/bin/bash
rm -rf /
echo done"))
    (policy ["Write"] [] []) no_judge
  = (Allow, "Approved by allow rule: Write") /\
  enforce_permissions "Write"
    (<["file_path" := "/tmp/cleanup.sh"]>
       (input1 "content" "#!/bin/bash
rm -rf /
echo done"))
    (policy ["Write"] [] []) (fixed_judge true)
  = (Allow, "Approved by allow rule: Write") /\
  RegexDenylist.check "!rm -rf /" = Some "Recursive delete from root" /\
  enforce_permissions "NotebookEdit" (input1 "new_source" "!rm -rf /")
    (policy ["NotebookEdit"] [] []) (fixed_judge true)
  = (Allow, "Approved by allow rule: NotebookEdit").
Proof. repeat split; reflexivity. Qed.

(** ** Settings merge *)

Section Merge.
Import SettingsLoader.

Definition is_bucket_key (key : string) : Prop :=
  key = "allow" \/ key = "deny" \/ key = "ask".

Lemma merge_key_bucket (perms m : gmap string (list string)) (k key : string) :
  bucket (merge_key perms m k) key
  = if String.eqb k key then (bucket perms key ++ bucket m key)%list else bucket m key.
Proof.
  unfold merge_key, bucket.
  destruct (String.eqb_spec k key) as [->|Hne].
  - destruct (perms !! key) as [l|] eqn:E; simpl.
    + rewrite lookup_insert_eq. reflexivity.
    + reflexivity.
  - destruct (perms !! k); [|reflexivity].
    rewrite lookup_insert_ne by congruence. reflexivity.
Qed.

Lemma merge_file_bucket (m : gmap string (list string)) (f : settings_file) (key : string) :
  is_bucket_key key ->
  bucket (merge_file m f) key = (contribution key f ++ bucket m key)%list.
Proof.
  intros Hk. destruct f as [|doc]; [reflexivity|].
  unfold merge_file, contribution. simpl fold_left.
  rewrite !merge_key_bucket.
  destruct Hk as [->|[->| ->]]; simpl; reflexivity.
Qed.

Lemma fold_merge_bucket (fs : list settings_file) (m : gmap string (list string)) (key : string) :
  is_bucket_key key ->
  bucket (fold_left merge_file (rev fs) m) key
  = (concat (map (contribution key) fs) ++ bucket m key)%list.
Proof.
  intros Hk. induction fs as [|f fs IH]; [reflexivity|].
  simpl. rewrite fold_left_app. simpl.
  rewrite merge_file_bucket by exact Hk. rewrite IH.
  rewrite app_assoc. reflexivity.
Qed.

(** Each bucket of the merged policy is the concatenation, in priority
    order, of what the existing files contribute. *)
Lemma load_permissions_bucket (candidates : list (option settings_file)) (key : string) :
  is_bucket_key key ->
  bucket (load_permissions candidates) key
  = concat (map (contribution key) (find_settings_files candidates)).
Proof.
  intros Hk. unfold load_permissions.
  rewrite fold_merge_bucket by exact Hk.
  assert (bucket merged0 key = []) as ->
    by (destruct Hk as [->|[->| ->]]; reflexivity).
  apply app_nil_r.
Qed.

End Merge.

(** C7: with the files found in priority order [pre ++ hi :: mid ++ lo :: post],
    every bucket of the merge lists all of [hi]'s rules, then [mid]'s, then
    all of [lo]'s: a higher-priority file's rules precede a lower-priority
    file's; the merge is a function of its inputs. *)
Theorem settings_merge_priority_order
    (candidates : list (option SettingsLoader.settings_file))
    (pre mid post : list SettingsLoader.settings_file)
    (hi lo : SettingsLoader.settings_file) (key : string) :
  is_bucket_key key ->
  SettingsLoader.find_settings_files candidates = (pre ++ hi :: mid ++ lo :: post)%list ->
  SettingsLoader.bucket (SettingsLoader.load_permissions candidates) key
  = (concat (map (SettingsLoader.contribution key) pre)
     ++ SettingsLoader.contribution key hi
     ++ concat (map (SettingsLoader.contribution key) mid)
     ++ SettingsLoader.contribution key lo
     ++ concat (map (SettingsLoader.contribution key) post))%list.
Proof.
  intros Hk Hf. rewrite load_permissions_bucket by exact Hk. rewrite Hf.
  rewrite !map_app, !concat_app. simpl. rewrite ?map_app, ?concat_app. simpl.
  reflexivity.
Qed.

Definition local_doc : SettingsLoader.settings_file :=
  SettingsLoader.Parsed {| SettingsLoader.permissions :=
    Some (<["allow" := ["Bash(yarn *)"]]> ∅) |}.
Definition project_doc : SettingsLoader.settings_file :=
  SettingsLoader.Parsed {| SettingsLoader.permissions :=
    Some (<["allow" := ["Bash(npm *)"]]> ∅) |}.

Lemma settings_merge_priority_order_witness :
  SettingsLoader.bucket
    (SettingsLoader.load_permissions [Some local_doc; Some project_doc; None]) "allow"
  = ["Bash(yarn *)"; "Bash(npm *)"].
Proof.
  rewrite (settings_merge_priority_order _ [] [] [] local_doc project_doc "allow").
  - reflexivity.
  - left. reflexivity.
  - reflexivity.
Defined.

(** ** WebFetch domain rules *)

(** The host of a URL in the spec's sense: after the scheme's [://],
    up to the first [/], [?] or [#], without user information and port. *)
Fixpoint drop_scheme (l : list ascii) : option (list ascii) :=
  match l with
  | ":"%char :: "/"%char :: "/"%char :: t => Some t
  | _ :: t => drop_scheme t
  | [] => None
  end.

Fixpoint take_until (stop : ascii -> bool) (l : list ascii) : list ascii :=
  match l with
  | c :: t => if stop c then [] else c :: take_until stop t
  | [] => []
  end.

Definition spec_url_host (url : string) : string :=
  let l := chars url in
  let rest := match drop_scheme l with Some t => t | None => l end in
  let authority := take_until (fun c => ceq c "/" || ceq c "?" || ceq c "#") rest in
  let hostport := rev (take_until (ceq "@") (rev authority)) in
  of_chars (take_until (ceq ":") hostport).

(** A WebFetch rule whose pattern does not start with [domain:] never
    matches. *)
Lemma webfetch_other_shape_never_matches
    (tool_input : gmap string string) (rule pattern : string) :
  PermissionMatcher.parse_rule rule = ("WebFetch", Some pattern) ->
  startswith (chars pattern) (chars "domain:") = false ->
  PermissionMatcher.matches_rule "WebFetch" tool_input rule = false.
Proof.
  intros Hp Hs. unfold PermissionMatcher.matches_rule. rewrite Hp. cbn -[startswith chars contains].
  rewrite Hs. reflexivity.
Qed.

(** C3 diverges: the domain is searched in the whole URL.  The rule
    [WebFetch(domain:github.com)] matches a fetch whose host is
    [evil.com], because [github.com] occurs in the path. *)
Lemma webfetch_domain_found_outside_host :
  spec_url_host "https://evil.com/github.com" = "evil.com" /\
  contains (chars "evil.com") (chars "github.com") = false /\
  PermissionMatcher.matches_rule "WebFetch" (input1 "url" "https://evil.com/github.com")
    "WebFetch(domain:github.com)" = true /\
  fst (enforce_permissions "WebFetch" (input1 "url" "https://evil.com/github.com")
         (policy ["WebFetch(domain:github.com)"] [] []) no_judge) = Allow.
Proof. repeat split; reflexivity. Qed.

(** ** Bash word-boundary law *)

Lemma chars_app (a b : string) : chars (a ++ b) = (chars a ++ chars b)%list.
Proof. induction a as [|c a IH]; simpl; [reflexivity|]. unfold chars in *. simpl. rewrite IH. reflexivity. Qed.

Lemma of_chars_chars (s : string) : of_chars (chars s) = s.
Proof. apply string_of_list_ascii_of_string. Qed.

Definition no_star (x : string) : Prop := forallb (fun c => negb (ceq c "*")) (chars x) = true.
Definition no_newline (s : string) : Prop := forallb any_nl (chars s) = true.

Lemma rmatch_literal_prefix (x : list ascii) (ps : list item) (s : list ascii) :
  forallb (fun c => negb (ceq c "*")) x = true ->
  rmatch (map PermissionMatcher.glob_item x ++ ps)%list (x ++ s)%list = rmatch ps s.
Proof.
  induction x as [|c x IH]; simpl; [reflexivity|].
  intros H. apply andb_prop in H as [Hc Hx].
  unfold PermissionMatcher.glob_item. apply negb_true_iff in Hc. rewrite Hc.
  simpl. unfold ceq. rewrite Ascii.eqb_refl. simpl. apply IH, Hx.
Qed.

Lemma rmatch_one_cons (p : ascii -> bool) (ps : list item) (c : ascii) (s : list ascii) :
  rmatch (One p :: ps) (c :: s) = p c && rmatch ps s.
Proof. reflexivity. Qed.

Lemma rmatch_many_cons (p : ascii -> bool) (ps : list item) (c : ascii) (s : list ascii) :
  rmatch (Many p :: ps) (c :: s) = rmatch ps (c :: s) || (p c && rmatch (Many p :: ps) s).
Proof. reflexivity. Qed.

Lemma rmatch_dot_star_end (s : list ascii) :
  forallb any_nl s = true -> rmatch [Many any_nl; End] s = true.
Proof.
  induction s as [|c s IH]; [reflexivity|].
  simpl forallb. intros H. apply andb_prop in H as [Hc Hs].
  rewrite rmatch_many_cons, Hc, (IH Hs). apply orb_true_r.
Qed.

Lemma glob_items_space_star (x : string) :
  map PermissionMatcher.glob_item (chars (x ++ " *"))
  = (map PermissionMatcher.glob_item (chars x) ++ [lit " "; Many any_nl])%list.
Proof. rewrite chars_app, map_app. reflexivity. Qed.

Lemma glob_items_star (x : string) :
  map PermissionMatcher.glob_item (chars (x ++ "*"))
  = (map PermissionMatcher.glob_item (chars x) ++ [Many any_nl])%list.
Proof. rewrite chars_app, map_app. reflexivity. Qed.

Lemma normalize_space_star (x : string) :
  PermissionMatcher._normalize_bash_pattern (x ++ " *") = x ++ " *".
Proof.
  unfold PermissionMatcher._normalize_bash_pattern.
  rewrite chars_app. simpl (chars " *"). rewrite rev_app_distr. simpl.
  change [" "%char; "*"%char] with (chars " *").
  rewrite <- chars_app. apply of_chars_chars.
Qed.

Lemma not_star_pattern (x : string) : String.eqb (x ++ " *") "*" = false.
Proof.
  destruct (String.eqb_spec (x ++ " *") "*") as [E|]; [|reflexivity].
  apply (f_equal (fun s => List.length (chars s))) in E.
  rewrite chars_app, length_app in E. simpl in E. lia.
Qed.

(** C8 fails: [*] becomes [.*] without DOTALL, and [.] does not match a
    newline, so ["ls *"] and ["ls*"] do not match the two-line command
    ["ls a\nb"], while the pattern ["*"] does.  A multi-line command thus
    slips past a deny rule on [git] commands and is allowed by a rule
    allowing every Bash call. *)
Lemma word_boundary_newline_counterexample :
  PermissionMatcher._bash_pattern_matches "ls a
b" "ls *" = false /\
  PermissionMatcher._bash_pattern_matches "ls a
b" "ls*" = false /\
  PermissionMatcher._bash_pattern_matches "ls a
b" "*" = true /\
  enforce_permissions "Bash" (input1 "command" "git push origin
main --force")
    (policy ["Bash(*)"] ["Bash(git *)"] []) no_judge
  = (Allow, "Approved by allow rule: Bash(*)").
Proof. repeat split; reflexivity. Qed.

(** The word-boundary law on single-line commands: for a prefix [x]
    without [*] whose ["x*"] is not in the colon form, ["x *"] matches [x], a space and any newline-free
    rest, never [x] followed by a suffix not starting with a space, and
    ["x*"] matches [x] followed by any newline-free suffix. *)
Theorem word_boundary_law (x : string) :
  no_star x ->
  PermissionMatcher._normalize_bash_pattern (x ++ "*") = x ++ "*" ->
  (forall rest, no_newline rest ->
     PermissionMatcher._bash_pattern_matches (x ++ " " ++ rest) (x ++ " *") = true) /\
  (forall suffix, startswith (chars suffix) (chars " ") = false ->
     PermissionMatcher._bash_pattern_matches (x ++ suffix) (x ++ " *") = false) /\
  (forall suffix, no_newline suffix ->
     PermissionMatcher._bash_pattern_matches (x ++ suffix) (x ++ "*") = true).
Proof.
  intros Hx Hnorm. unfold no_star in Hx. split; [|split].
  - intros rest Hr. unfold PermissionMatcher._bash_pattern_matches.
    rewrite normalize_space_star, not_star_pattern, glob_items_space_star.
    rewrite <- app_assoc, !chars_app.
    rewrite rmatch_literal_prefix by exact Hx.
    change (chars " ") with [" "%char]. simpl app. unfold lit.
    rewrite rmatch_one_cons, rmatch_dot_star_end by exact Hr. reflexivity.
  - intros suffix Hs. unfold PermissionMatcher._bash_pattern_matches.
    rewrite normalize_space_star, not_star_pattern, glob_items_space_star.
    rewrite <- app_assoc, chars_app.
    rewrite rmatch_literal_prefix by exact Hx. simpl app.
    destruct (chars suffix) as [|c t]; [reflexivity|].
    change (chars " ") with [" "%char] in Hs. cbn [startswith] in Hs.
    assert (startswith t [] = true) as E by (destruct t; reflexivity).
    rewrite E, andb_true_r in Hs. unfold lit. rewrite rmatch_one_cons, Hs. reflexivity.
  - intros suffix Hs. unfold PermissionMatcher._bash_pattern_matches.
    rewrite Hnorm.
    destruct (String.eqb (x ++ "*") "*"); [reflexivity|].
    rewrite glob_items_star, <- app_assoc, chars_app.
    rewrite rmatch_literal_prefix by exact Hx. simpl app.
    apply rmatch_dot_star_end, Hs.
Qed.

Lemma word_boundary_law_witness :
  PermissionMatcher._bash_pattern_matches "ls -la" "ls *" = true /\
  PermissionMatcher._bash_pattern_matches "lsof" "ls *" = false /\
  PermissionMatcher._bash_pattern_matches "lsof" "ls*" = true.
Proof.
  destruct (word_boundary_law "ls" eq_refl eq_refl) as (H1 & H2 & H3).
  split; [apply (H1 "-la"); reflexivity|].
  split; [apply (H2 "of"); reflexivity|].
  apply (H3 "of"); reflexivity.
Defined.

(* ================================================================== *)
(** * Further properties of the module *)

(** ** [parse_rule] *)

Lemma lstrip_head (l : list ascii) :
  match l with [] => True | c :: _ => is_space c = false end -> lstrip l = l.
Proof. destruct l as [|c l]; simpl; [reflexivity|]. intros H. rewrite H. reflexivity. Qed.

Lemma word_not_space (c : ascii) : is_word c = true -> is_space c = false.
Proof. destruct c as [[] [] [] [] [] [] [] []]; intros H; try reflexivity; discriminate H. Qed.

Lemma span_word_all (w rest : list ascii) :
  forallb is_word w = true ->
  match rest with [] => True | c :: _ => is_word c = false end ->
  PermissionMatcher.span_word (w ++ rest)%list = (w, rest).
Proof.
  intros Hw Hr. induction w as [|c w IH]; simpl.
  - destruct rest as [|c rest]; simpl; [reflexivity|]. rewrite Hr. reflexivity.
  - simpl in Hw. apply andb_prop in Hw as [Hc Hw]. rewrite Hc, (IH Hw). reflexivity.
Qed.

Lemma chars_cons (c : ascii) (s : string) : chars (String c s) = c :: chars s.
Proof. reflexivity. Qed.

Lemma chars_inj (a b : string) : chars a = chars b -> a = b.
Proof. intros H. rewrite <- (of_chars_chars a), <- (of_chars_chars b), H. reflexivity. Qed.

(** [parse_rule] inverts the rule syntax: ["Tool(pattern)"] gives
    [("Tool", Some pattern)] for every pattern, and a bare ["Tool"] gives
    [("Tool", None)], when the tool name is a non-empty word. *)
Theorem parse_rule_roundtrip (w p : string) :
  chars w <> [] -> forallb is_word (chars w) = true ->
  PermissionMatcher.parse_rule (w ++ "(" ++ p ++ ")") = (w, Some p) /\
  PermissionMatcher.parse_rule w = (w, None).
Proof.
  intros Hne Hw.
  assert (Hhead : match chars w with [] => True | c :: _ => is_space c = false end).
  { destruct (chars w) as [|c l] eqn:E; [exact I|].
    apply word_not_space. simpl in Hw. apply andb_prop in Hw. tauto. }
  assert (Hlast : forall l, forallb is_word l = true ->
            match rev l with [] => True | c :: _ => is_space c = false end).
  { intros l Hl. destruct (rev l) as [|c l'] eqn:E; [exact I|].
    apply word_not_space.
    assert (In c l) by (apply in_rev; rewrite E; left; reflexivity).
    rewrite forallb_forall in Hl. auto. }
  split.
  - assert (E : chars (w ++ "(" ++ p ++ ")")
                = (chars w ++ "("%char :: chars p ++ [")"%char])%list)
      by (rewrite !chars_app; reflexivity).
    unfold PermissionMatcher.parse_rule, strip. rewrite E.
    rewrite (lstrip_head (chars w ++ _)%list)
      by (destruct (chars w); [congruence|exact Hhead]).
    rewrite app_comm_cons, app_assoc, rev_unit.
    rewrite (lstrip_head (")"%char :: _)) by reflexivity.
    cbn [rev]. rewrite rev_involutive, <- app_assoc, <- app_comm_cons.
    rewrite span_word_all by (exact Hw || reflexivity).
    destruct (chars w) as [|c l] eqn:Ew; [congruence|].
    cbn [at_end].
    destruct (chars p ++ [")"%char])%list eqn:Ep;
      [destruct (chars p); discriminate|].
    rewrite <- Ep. cbv iota.
    unfold PermissionMatcher.close_paren. rewrite rev_unit. cbv iota.
    rewrite rev_involutive, <- Ew, !of_chars_chars. reflexivity.
  - unfold PermissionMatcher.parse_rule, strip.
    rewrite (lstrip_head (chars w)) by exact Hhead.
    rewrite (lstrip_head (rev _)) by (apply Hlast; exact Hw).
    rewrite rev_involutive.
    rewrite <- (app_nil_r (chars w)), span_word_all by (exact Hw || exact I).
    rewrite app_nil_r.
    destruct (chars w) as [|c l] eqn:Ew; [congruence|].
    cbv iota. rewrite <- Ew, of_chars_chars. reflexivity.
Qed.

Lemma parse_rule_roundtrip_witness :
  PermissionMatcher.parse_rule "Bash(git *)" = ("Bash", Some "git *") /\
  PermissionMatcher.parse_rule "Bash" = ("Bash", None).
Proof. apply (parse_rule_roundtrip "Bash" "git *"); [discriminate|reflexivity]. Defined.

Lemma lstrip_snoc (l : list ascii) (c : ascii) :
  is_space c = true ->
  lstrip (l ++ [c])%list = match lstrip l with [] => [] | y => (y ++ [c])%list end.
Proof.
  intros Hc. induction l as [|x l IH]; simpl.
  - rewrite Hc. reflexivity.
  - destruct (is_space x); [exact IH|reflexivity].
Qed.

Lemma strip_space_cons (c : ascii) (s : string) :
  is_space c = true -> strip (String c s) = strip s.
Proof. intros Hc. unfold strip. rewrite chars_cons. simpl. rewrite Hc. reflexivity. Qed.

Lemma strip_space_snoc (c : ascii) (s : string) :
  is_space c = true -> strip (s ++ String c "") = strip s.
Proof.
  intros Hc. unfold strip. rewrite chars_app. simpl (chars (String c "")).
  rewrite lstrip_snoc by exact Hc.
  destruct (lstrip (chars s)) as [|y ys]; [reflexivity|].
  rewrite rev_unit. simpl. rewrite Hc. reflexivity.
Qed.

(** Whitespace around a rule is insignificant: adding a whitespace
    character before or after it does not change how it parses. *)
Theorem parse_rule_ignores_surrounding_space (rule : string) (c : ascii) :
  is_space c = true ->
  PermissionMatcher.parse_rule (String c rule) = PermissionMatcher.parse_rule rule /\
  PermissionMatcher.parse_rule (rule ++ String c "") = PermissionMatcher.parse_rule rule.
Proof.
  intros Hc. unfold PermissionMatcher.parse_rule.
  rewrite strip_space_cons, strip_space_snoc by exact Hc. split; reflexivity.
Qed.

Lemma parse_rule_ignores_surrounding_space_witness :
  PermissionMatcher.parse_rule " Bash(git *)" = PermissionMatcher.parse_rule "Bash(git *)" /\
  PermissionMatcher.parse_rule ("Bash(git *)" ++ String "010" "")
  = PermissionMatcher.parse_rule "Bash(git *)".
Proof. exact (parse_rule_ignores_surrounding_space "Bash(git *)" " " eq_refl). Defined.

(** ** [matches_rule] *)

(** The deprecated colon syntax: ["g:*"] is normalised to ["g *"], so the
    two patterns match the same commands, when [g] is non-empty and has no
    newline. *)
Theorem colon_syntax_equivalent (g command : string) :
  chars g <> [] -> forallb any_nl (chars g) = true ->
  PermissionMatcher._normalize_bash_pattern (g ++ ":*") = g ++ " *" /\
  PermissionMatcher._bash_pattern_matches command (g ++ ":*")
  = PermissionMatcher._bash_pattern_matches command (g ++ " *").
Proof.
  intros Hne Hg.
  assert (N : PermissionMatcher._normalize_bash_pattern (g ++ ":*") = g ++ " *").
  { unfold PermissionMatcher._normalize_bash_pattern.
    rewrite chars_app. change (chars ":*") with [":"%char; "*"%char].
    rewrite rev_app_distr. cbn [rev app]. rewrite rev_involutive.
    unfold PermissionMatcher.normalize_group.
    destruct (chars g) as [|c l] eqn:E; [congruence|]. rewrite Hg.
    rewrite <- E. change (chars " *") with (chars " *").
    rewrite <- chars_app. apply of_chars_chars. }
  split; [exact N|].
  unfold PermissionMatcher._bash_pattern_matches. rewrite N, normalize_space_star.
  reflexivity.
Qed.

Lemma colon_syntax_equivalent_witness :
  PermissionMatcher._bash_pattern_matches "git status" "git:*" = true /\
  PermissionMatcher._bash_pattern_matches "gitignore" "git:*" = false.
Proof.
  rewrite !(proj2 (colon_syntax_equivalent "git" _ ltac:(discriminate) eq_refl)).
  split; reflexivity.
Defined.

Lemma rmatch_literal_iff (x : list ascii) (ps : list item) (s : list ascii) :
  forallb (fun c => negb (ceq c "*")) x = true ->
  rmatch (map PermissionMatcher.glob_item x ++ ps)%list s = true <->
  exists s', s = (x ++ s')%list /\ rmatch ps s' = true.
Proof.
  revert s. induction x as [|c x IH]; intros s Hx; simpl.
  - split; [eauto|]. intros (s' & -> & H). exact H.
  - apply andb_prop in Hx as [Hc Hx].
    unfold PermissionMatcher.glob_item. apply negb_true_iff in Hc. rewrite Hc.
    destruct s as [|d s].
    + split; [discriminate|]. intros (s' & E & _). discriminate.
    + unfold lit. rewrite andb_true_iff, IH by exact Hx. unfold ceq.
      split.
      * intros [Hcd (s' & -> & H)]. apply Ascii.eqb_eq in Hcd. subst. eauto.
      * intros (s' & E & H). injection E as -> ->.
        rewrite Ascii.eqb_refl. eauto.
Qed.

(** A Bash pattern without [*] (and not in the colon form) matches only
    the command equal to it, or that command with one trailing newline
    (Python's [$] also matches before a final newline). *)
Theorem bash_literal_pattern_exact (command pattern : string) :
  no_star pattern ->
  PermissionMatcher._normalize_bash_pattern pattern = pattern ->
  PermissionMatcher._bash_pattern_matches command pattern = true <->
  command = pattern \/ command = pattern ++ String "010" "".
Proof.
  intros Hx Hn. unfold PermissionMatcher._bash_pattern_matches. rewrite Hn.
  destruct (String.eqb_spec pattern "*") as [->|_]; [discriminate|].
  rewrite rmatch_literal_iff by exact Hx.
  split.
  - intros (s' & E & H). simpl in H. rewrite andb_true_r in H.
    destruct s' as [|c [|d t]]; [|simpl in H|discriminate].
    + left. apply chars_inj. rewrite E. apply app_nil_r.
    + right. apply chars_inj. rewrite E, chars_app.
      unfold is_newline, ceq in H. apply Ascii.eqb_eq in H. subst. reflexivity.
  - intros [-> | ->].
    + exists []. rewrite app_nil_r. split; reflexivity.
    + exists ["010"%char]. rewrite chars_app. split; reflexivity.
Qed.

Lemma bash_literal_pattern_exact_witness :
  PermissionMatcher._bash_pattern_matches "git status" "git status" = true /\
  PermissionMatcher._bash_pattern_matches "git status --short" "git status" = false.
Proof.
  split.
  - apply (bash_literal_pattern_exact "git status" "git status" eq_refl eq_refl).
    left. reflexivity.
  - destruct (PermissionMatcher._bash_pattern_matches "git status --short" "git status")
      eqn:E; [|reflexivity].
    apply (bash_literal_pattern_exact "git status --short" "git status" eq_refl eq_refl) in E.
    destruct E as [E|E]; discriminate E.
Defined.

Lemma startswith_app (p s : list ascii) : startswith (p ++ s)%list p = true.
Proof. induction p as [|c p IH]; [destruct s; reflexivity|]. simpl. unfold ceq. rewrite Ascii.eqb_refl. exact IH. Qed.

Lemma contains_nil (s : list ascii) : contains s [] = true.
Proof. destruct s; reflexivity. Qed.

(** A [WebFetch(domain:d)] rule matches exactly the calls whose ["url"]
    (empty when missing) contains [d]: with an empty [d] it matches every
    WebFetch call, and with a non-empty [d] it never matches a call
    without a URL. *)
Theorem webfetch_domain_rule (tool_input : gmap string string) (d : string) :
  PermissionMatcher.matches_rule "WebFetch" tool_input ("WebFetch(domain:" ++ d ++ ")")
  = contains (chars (get_str tool_input "url")) (chars d) /\
  (d = "" ->
   PermissionMatcher.matches_rule "WebFetch" tool_input ("WebFetch(domain:" ++ d ++ ")")
   = true) /\
  (tool_input !! "url" = None -> d <> "" ->
   PermissionMatcher.matches_rule "WebFetch" tool_input ("WebFetch(domain:" ++ d ++ ")")
   = false).
Proof.
  assert (Eq : PermissionMatcher.matches_rule "WebFetch" tool_input
                 ("WebFetch(domain:" ++ d ++ ")")
               = contains (chars (get_str tool_input "url")) (chars d)).
  { change ("WebFetch(domain:" ++ d ++ ")") with ("WebFetch" ++ "(" ++ ("domain:" ++ d) ++ ")").
    unfold PermissionMatcher.matches_rule.
    rewrite (proj1 (parse_rule_roundtrip "WebFetch" ("domain:" ++ d)
                      ltac:(discriminate) eq_refl)).
    cbn -[startswith contains chars skipn get_str].
    rewrite chars_app, startswith_app. reflexivity. }
  split; [exact Eq|]. rewrite Eq. split.
  - intros ->. apply contains_nil.
  - intros Hu Hd. unfold get_str. rewrite Hu. simpl.
    destruct d as [|c d]; [contradiction|reflexivity].
Qed.

Lemma webfetch_domain_rule_witness :
  PermissionMatcher.matches_rule "WebFetch" (input1 "url" "https://any.org")
    "WebFetch(domain:)" = true /\
  PermissionMatcher.matches_rule "WebFetch" ∅ "WebFetch(domain:github.com)" = false.
Proof.
  split.
  - apply (proj1 (proj2 (webfetch_domain_rule (input1 "url" "https://any.org") ""))).
    reflexivity.
  - apply (proj2 (proj2 (webfetch_domain_rule ∅ "github.com"))); [reflexivity|discriminate].
Defined.

Lemma path_tool_cases (t : string) :
  PermissionMatcher.is_path_tool t = true ->
  t = "Read" \/ t = "Edit" \/ t = "Write" \/ t = "Glob" \/ t = "Grep".
Proof.
  unfold PermissionMatcher.is_path_tool. simpl. rewrite orb_false_r.
  intros H. repeat (apply orb_true_iff in H as [H|H];
                    [apply String.eqb_eq in H; auto 6|]).
  apply String.eqb_eq in H. auto 6.
Qed.

(** For the file tools, a rule with a pattern never matches a call that
    carries neither ["file_path"] nor ["path"], and a rule with an empty
    pattern never matches at all. *)
Theorem path_rule_needs_path_and_pattern
    (tool_name : string) (tool_input : gmap string string) (rule pattern : string) :
  PermissionMatcher.is_path_tool tool_name = true ->
  PermissionMatcher.parse_rule rule = (tool_name, Some pattern) ->
  (tool_input !! "file_path" = None /\ tool_input !! "path" = None) \/ pattern = "" ->
  PermissionMatcher.matches_rule tool_name tool_input rule = false.
Proof.
  intros Ht Hp Hcase. unfold PermissionMatcher.matches_rule. rewrite Hp.
  rewrite String.eqb_refl. simpl negb. cbv iota.
  destruct (path_tool_cases _ Ht) as [->|[->|[->|[->| ->]]]];
    cbn -[get_str PermissionMatcher.fnmatch PermissionMatcher.basename lookup];
    (destruct Hcase as [[Hf Hq]| ->];
     [rewrite Hf; unfold get_str; rewrite Hq; reflexivity
     |rewrite orb_true_r; reflexivity]).
Qed.

Lemma path_rule_needs_path_and_pattern_witness :
  PermissionMatcher.matches_rule "Read" (input1 "pattern" "*.py") "Read(*.py)" = false.
Proof.
  apply (path_rule_needs_path_and_pattern "Read" _ _ "*.py"); [reflexivity|reflexivity|].
  left. split; reflexivity.
Defined.

Lemma rmatch_any_star_eos (s : list ascii) : rmatch [Many (fun _ => true); Eos] s = true.
Proof.
  induction s as [|c s IH]; [reflexivity|].
  rewrite rmatch_many_cons, IH. apply orb_true_r.
Qed.

(** For the file tools, the glob [*] matches every path: [Tool( * )]
    matches every call whose ["file_path"] is non-empty, in any
    directory. *)
Theorem path_star_rule_matches_any_path
    (tool_name : string) (tool_input : gmap string string) (file_path : string) :
  PermissionMatcher.is_path_tool tool_name = true ->
  tool_input !! "file_path" = Some file_path -> file_path <> "" ->
  PermissionMatcher.matches_rule tool_name tool_input (tool_name ++ "(*)") = true.
Proof.
  intros Ht Hf Hne.
  assert (Hp : PermissionMatcher.parse_rule (tool_name ++ "(*)") = (tool_name, Some "*"))
    by (destruct (path_tool_cases _ Ht) as [->|[->|[->|[->| ->]]]]; reflexivity).
  unfold PermissionMatcher.matches_rule. rewrite Hp.
  rewrite String.eqb_refl. simpl negb. cbv iota.
  assert (Hfn : PermissionMatcher.fnmatch file_path "*" = true)
    by apply rmatch_any_star_eos.
  destruct (path_tool_cases _ Ht) as [->|[->|[->|[->| ->]]]];
    cbn -[get_str PermissionMatcher.fnmatch PermissionMatcher.basename lookup];
    rewrite Hf; destruct (String.eqb_spec file_path "") as [E|_];
    (contradiction || (rewrite Hfn; reflexivity)).
Qed.

Lemma path_star_rule_matches_any_path_witness :
  PermissionMatcher.matches_rule "Edit" (input1 "file_path" "src/deep/dir/app.ts")
    "Edit(*)" = true.
Proof.
  apply (path_star_rule_matches_any_path "Edit" _ "src/deep/dir/app.ts");
    [reflexivity|reflexivity|discriminate].
Defined.

(** ** [RegexDenylist.check] *)

Definition lowercase (s : string) : string := of_chars (map lower (chars s)).

Definition lower_inv (p : ascii -> bool) : Prop := forall x, p (lower x) = p x.

Definition items_inv (ps : list item) : Prop :=
  Forall (fun it => match it with One p | Many p => lower_inv p | _ => True end) ps.

Lemma lower_facts (c : ascii) :
  lower (lower c) = lower c /\ is_newline (lower c) = is_newline c.
Proof. destruct c as [[] [] [] [] [] [] [] []]; split; reflexivity. Qed.

Lemma rmatch_lower (ps : list item) (s : list ascii) :
  items_inv ps -> rmatch ps (map lower s) = rmatch ps s.
Proof.
  revert s. induction ps as [|it ps IH]; intros s Hps; [reflexivity|].
  inversion Hps as [|? ? Hit Hrest]; subst.
  destruct it as [p|p| |].
  - destruct s as [|c s]; [reflexivity|]. simpl. rewrite Hit, IH by exact Hrest. reflexivity.
  - induction s as [|c s IHs]; [reflexivity|].
    simpl map. rewrite !rmatch_many_cons, IHs, Hit.
    rewrite <- (IH (c :: s) Hrest). reflexivity.
  - simpl. rewrite IH by exact Hrest. f_equal.
    destruct s as [|c [|d t]]; simpl; [reflexivity| |reflexivity].
    apply (proj2 (lower_facts c)).
  - destruct s; simpl; reflexivity.
Qed.

Lemma rsearch_lower (ps : list item) (s : list ascii) :
  items_inv ps -> rsearch ps (map lower s) = rsearch ps s.
Proof.
  intros H. induction s as [|c s IH]; simpl; [reflexivity|].
  rewrite IH. f_equal. apply (rmatch_lower ps (c :: s) H).
Qed.

Lemma ilits_inv (s : string) : items_inv (ilits s).
Proof.
  induction s as [|c s IH]; [constructor|].
  constructor; [|exact IH].
  intros x. cbv beta. rewrite (proj1 (lower_facts x)). reflexivity.
Qed.

Ltac char_cases := intros x; destruct x as [[] [] [] [] [] [] [] []]; reflexivity.

Lemma PATTERNS_inv : Forall (fun pr => items_inv (fst pr)) RegexDenylist.PATTERNS.
Proof.
  unfold RegexDenylist.PATTERNS, sp_plus, sp_star, dot_star.
  repeat constructor; simpl fst;
    repeat (apply Forall_app; split); try apply ilits_inv;
    repeat constructor; char_cases.
Qed.

Lemma check_in_lower (pats : list (list item * string)) (command : string) :
  Forall (fun pr => items_inv (fst pr)) pats ->
  RegexDenylist.check_in pats (lowercase command) = RegexDenylist.check_in pats command.
Proof.
  intros H. induction pats as [|[pat reason] pats IH]; [reflexivity|].
  inversion H as [|? ? Hp Hrest]; subst. simpl.
  assert (E : chars (lowercase command) = map lower (chars command))
    by apply list_ascii_of_string_of_list_ascii.
  rewrite E, rsearch_lower by exact Hp. rewrite IH by exact Hrest. reflexivity.
Qed.

(** The denylist ignores letter case: lowercasing a command never changes
    the verdict of [RegexDenylist.check]. *)
Theorem denylist_case_insensitive (command : string) :
  RegexDenylist.check (lowercase command) = RegexDenylist.check command.
Proof. apply check_in_lower, PATTERNS_inv. Qed.

Lemma rsearch_prefix (ps : list item) (pre s : list ascii) :
  rsearch ps s = true -> rsearch ps (pre ++ s)%list = true.
Proof.
  intros H. induction pre as [|c pre IH]; [exact H|].
  simpl. rewrite IH. apply orb_true_r.
Qed.

(** No start anchor: text put in front of a denylisted command (a [cd],
    an [echo ... &&], a [sudo]) never hides it from the denylist. *)
Theorem denylist_hit_survives_prefix (pre command : string) :
  RegexDenylist.check command <> None ->
  RegexDenylist.check (pre ++ command) <> None.
Proof.
  unfold RegexDenylist.check. generalize RegexDenylist.PATTERNS as pats.
  intros pats. induction pats as [|[pat reason] pats IH]; simpl; [auto|].
  rewrite chars_app.
  destruct (rsearch pat (chars command)) eqn:E.
  - rewrite (rsearch_prefix _ _ _ E). discriminate.
  - intros H. destruct (rsearch pat (chars pre ++ chars command)%list); [discriminate|].
    apply IH, H.
Qed.

Lemma denylist_hit_survives_prefix_witness :
  RegexDenylist.check ("cd /tmp && sudo " ++ "rm -rf ~") <> None.
Proof. apply denylist_hit_survives_prefix. vm_compute. discriminate. Defined.

(** ** [SettingsLoader.load_permissions] *)

Section MergeMore.
Import SettingsLoader.

Lemma find_settings_files_app (a b : list (option settings_file)) :
  find_settings_files (a ++ b)%list = (find_settings_files a ++ find_settings_files b)%list.
Proof. induction a as [|[f|] a IH]; simpl; [reflexivity| |]; rewrite ?IH; reflexivity. Qed.

Lemma merge_file_noop (m : gmap string (list string)) (doc : SettingsDocument) :
  (forall k, is_bucket_key k -> default ∅ (permissions doc) !! k = None) ->
  merge_file m (Parsed doc) = m.
Proof.
  intros H. unfold merge_file. simpl.
  unfold merge_key at 3.
  rewrite (H "allow" ltac:(left; reflexivity)).
  unfold merge_key at 2. rewrite (H "deny" ltac:(right; left; reflexivity)).
  unfold merge_key. rewrite (H "ask" ltac:(right; right; reflexivity)).
  reflexivity.
Qed.

(** A settings file whose load fails with an error the loop catches
    ([JSONDecodeError] or [OSError]), or that parses to an object whose
    ["permissions"] object is missing or carries none of the keys
    [allow], [deny] and [ask], leaves the merged policy exactly as if the
    file did not exist. *)
Theorem load_permissions_ignores_empty_file
    (pre post : list (option settings_file)) (f : settings_file) :
  f = Malformed \/
  (exists doc, f = Parsed doc /\
     forall k, is_bucket_key k -> default ∅ (permissions doc) !! k = None) ->
  load_permissions (pre ++ Some f :: post)%list = load_permissions (pre ++ post)%list.
Proof.
  intros Hf. unfold load_permissions.
  rewrite !find_settings_files_app. simpl find_settings_files at 2.
  rewrite !rev_app_distr, !fold_left_app. simpl rev. rewrite fold_left_app.
  simpl fold_left at 2. f_equal.
  destruct Hf as [->|(doc & -> & Hdoc)]; [reflexivity|].
  apply merge_file_noop, Hdoc.
Qed.

Definition broken_doc : settings_file :=
  Parsed {| permissions := Some (<["allowed" := ["Bash(*)"]]> ∅) |}.

Lemma load_permissions_ignores_empty_file_witness :
  load_permissions [Some local_doc; Some broken_doc; Some Malformed]
  = load_permissions [Some local_doc].
Proof.
  assert (Hb : broken_doc = Malformed \/
               (exists doc, broken_doc = Parsed doc /\
                  forall k, is_bucket_key k -> default ∅ (permissions doc) !! k = None)).
  { right. exists {| permissions := Some (<["allowed" := ["Bash(*)"]]> ∅) |}.
    split; [reflexivity|]. intros k [->|[->| ->]]; reflexivity. }
  exact (eq_trans
           (load_permissions_ignores_empty_file [Some local_doc] [Some Malformed] broken_doc Hb)
           (load_permissions_ignores_empty_file [Some local_doc] [] Malformed
              (or_introl eq_refl))).
Defined.

Definition three_buckets (m : gmap string (list string)) : Prop :=
  forall key, is_Some (m !! key) <-> is_bucket_key key.

Lemma three_buckets_insert (m : gmap string (list string)) (k : string) (v : list string) :
  is_bucket_key k -> three_buckets m -> three_buckets (<[k := v]> m).
Proof.
  unfold three_buckets. intros Hk Hm key. rewrite lookup_insert_is_Some', Hm.
  split; [intros [<-|H]; auto|tauto].
Qed.

Lemma three_buckets_merge_file (m : gmap string (list string)) (f : settings_file) :
  three_buckets m -> three_buckets (merge_file m f).
Proof.
  intros Hm. destruct f as [|doc]; [exact Hm|].
  unfold merge_file. simpl.
  assert (Hk : forall perms m k, is_bucket_key k -> three_buckets m ->
                 three_buckets (merge_key perms m k)).
  { intros perms m' k Hk' Hm'. unfold merge_key.
    destruct (perms !! k); [apply three_buckets_insert|]; assumption. }
  apply Hk; [right; right; reflexivity|].
  apply Hk; [right; left; reflexivity|].
  apply Hk; [left; reflexivity|exact Hm].
Qed.

End MergeMore.

(** The merged policy always has exactly the three buckets [allow],
    [deny] and [ask]: other keys of a ["permissions"] object are ignored,
    and each bucket is present even when no file defines it. *)
Theorem load_permissions_exactly_three_buckets
    (candidates : list (option SettingsLoader.settings_file)) (key : string) :
  is_Some (SettingsLoader.load_permissions candidates !! key) <-> is_bucket_key key.
Proof.
  unfold SettingsLoader.load_permissions.
  generalize (rev (SettingsLoader.find_settings_files candidates)) as fs.
  intros fs. revert key.
  change (three_buckets (fold_left SettingsLoader.merge_file fs SettingsLoader.merged0)).
  assert (H0 : three_buckets SettingsLoader.merged0).
  { intros key. unfold SettingsLoader.merged0.
    rewrite !lookup_insert_is_Some', lookup_empty. unfold is_bucket_key.
    split.
    - intros [H|[H|[H|H]]]; [auto|auto|auto|]. destruct H as [? H]; discriminate H.
    - intros [->|[->| ->]]; auto. }
  revert H0. generalize SettingsLoader.merged0 as m.
  induction fs as [|f fs IH]; intros m Hm; [exact Hm|].
  simpl. apply IH, three_buckets_merge_file, Hm.
Qed.

(** ** [enforce_permissions] *)

Lemma first_match_Some_existsb (f : string -> bool) (rules : list string) (r : string) :
  first_match f rules = Some r -> existsb f rules = true.
Proof.
  induction rules as [|x xs IH]; simpl; [discriminate|].
  destruct (f x); simpl; [reflexivity|exact IH].
Qed.

Lemma first_match_None_existsb (f : string -> bool) (rules : list string) :
  first_match f rules = None <-> existsb f rules = false.
Proof.
  induction rules as [|x xs IH]; simpl; [tauto|].
  destruct (f x); simpl; [split; discriminate|exact IH].
Qed.

Definition danger_of (tool_name : string) (tool_input : gmap string string) : option string :=
  if String.eqb tool_name "Bash"
  then RegexDenylist.check (get_str tool_input "command") else None.

(** The decision of [enforce_permissions] as a table over the denylist,
    which buckets have a matching rule, and the judge. *)
Lemma enforce_decision (tool_name : string) (tool_input : gmap string string)
    (permissions : gmap string (list string)) (llm_judge : LLMJudge) :
  let m := PermissionMatcher.matches_rule tool_name tool_input in
  fst (enforce_permissions tool_name tool_input permissions llm_judge)
  = match danger_of tool_name tool_input with
    | Some _ => Deny
    | None =>
        if existsb m (get_rules permissions "deny") then Deny
        else if existsb m (get_rules permissions "allow") then
          if available llm_judge && negb (fst (fst (judge llm_judge tool_name tool_input)))
          then Ask else Allow
        else Ask
    end.
Proof.
  intros m. unfold enforce_permissions. fold m. fold (danger_of tool_name tool_input).
  destruct (danger_of tool_name tool_input); [reflexivity|].
  destruct (first_match m (get_rules permissions "deny")) eqn:Ed.
  { rewrite (first_match_Some_existsb _ _ _ Ed). reflexivity. }
  rewrite (proj1 (first_match_None_existsb _ _) Ed).
  destruct (first_match m (get_rules permissions "allow")) eqn:Ea.
  - rewrite (first_match_Some_existsb _ _ _ Ea).
    destruct (available llm_judge); [|reflexivity].
    destruct (judge llm_judge tool_name tool_input) as [[[|] ?] ?]; reflexivity.
  - rewrite (proj1 (first_match_None_existsb _ _) Ea).
    destruct (first_match m (get_rules permissions "ask")); reflexivity.
Qed.

Lemma danger_of_clear (tool_name : string) (tool_input : gmap string string) :
  danger_of tool_name tool_input = None -> denylist_clear tool_name tool_input.
Proof. intros H ->. exact H. Qed.

(** Fail-to-ask: a call is allowed only when it is clear of the denylist,
    no deny rule matches it, some allow rule does, and the judge, if
    available, found it safe. *)
Theorem allow_only_by_allow_rule
    (tool_name : string) (tool_input : gmap string string)
    (permissions : gmap string (list string)) (llm_judge : LLMJudge) :
  let m := PermissionMatcher.matches_rule tool_name tool_input in
  fst (enforce_permissions tool_name tool_input permissions llm_judge) = Allow ->
  denylist_clear tool_name tool_input /\
  existsb m (get_rules permissions "deny") = false /\
  existsb m (get_rules permissions "allow") = true /\
  (available llm_judge = true -> fst (fst (judge llm_judge tool_name tool_input)) = true).
Proof.
  intros m. rewrite enforce_decision. fold m.
  destruct (danger_of tool_name tool_input) eqn:Ed; [discriminate|].
  destruct (existsb m (get_rules permissions "deny")); [discriminate|].
  destruct (existsb m (get_rules permissions "allow")); [|discriminate].
  destruct (available llm_judge), (fst (fst (judge llm_judge tool_name tool_input)));
    simpl; intros H; try discriminate H;
    (split; [apply danger_of_clear, Ed|]); auto.
Qed.

Lemma allow_only_by_allow_rule_witness :
  existsb (PermissionMatcher.matches_rule "Bash" (input1 "command" "git status"))
    (get_rules (policy ["Bash(git *)"] [] []) "allow") = true.
Proof.
  destruct (allow_only_by_allow_rule "Bash" (input1 "command" "git status")
              (policy ["Bash(git *)"] [] []) (fixed_judge true) eq_refl)
    as (_ & _ & H & _).
  exact H.
Defined.

(** The judge never denies: a deny verdict comes from the denylist (for
    Bash) or from a matching deny rule. *)
Theorem deny_only_by_denylist_or_rule
    (tool_name : string) (tool_input : gmap string string)
    (permissions : gmap string (list string)) (llm_judge : LLMJudge) :
  fst (enforce_permissions tool_name tool_input permissions llm_judge) = Deny ->
  (tool_name = "Bash" /\ RegexDenylist.check (get_str tool_input "command") <> None) \/
  existsb (PermissionMatcher.matches_rule tool_name tool_input)
    (get_rules permissions "deny") = true.
Proof.
  rewrite enforce_decision. unfold danger_of.
  destruct (String.eqb_spec tool_name "Bash") as [->|_].
  - destruct (RegexDenylist.check (get_str tool_input "command")); [left; split; congruence|].
    destruct (existsb _ (get_rules permissions "deny")); [right; reflexivity|].
    destruct (existsb _ _); [|discriminate].
    destruct (_ && _); discriminate.
  - destruct (existsb _ (get_rules permissions "deny")); [right; reflexivity|].
    destruct (existsb _ _); [|discriminate].
    destruct (_ && _); discriminate.
Qed.

Lemma deny_only_by_denylist_or_rule_witness :
  existsb (PermissionMatcher.matches_rule "Read" (input1 "file_path" ".env"))
    (get_rules (policy ["Read"] ["Read(.env)"] []) "deny") = true.
Proof.
  destruct (deny_only_by_denylist_or_rule "Read" (input1 "file_path" ".env")
              (policy ["Read"] ["Read(.env)"] []) (fixed_judge false) eq_refl)
    as [[E _]|H]; [discriminate E|exact H].
Defined.

Lemma existsb_perm (f : string -> bool) (l1 l2 : list string) :
  l1 ≡ₚ l2 -> existsb f l1 = existsb f l2.
Proof.
  intros Hp. apply eq_bool_prop_intro. split; intros H;
    apply Is_true_true in H; apply Is_true_true;
    apply existsb_exists in H as (x & Hx & Hf); apply existsb_exists;
    exists x; split; auto.
  - by rewrite <- Hp.
  - by rewrite Hp.
Qed.

(** The verdict depends only on which buckets contain a matching rule, so
    reordering the rules inside any bucket never changes it (the reason
    text may name a different matching rule). *)
Theorem verdict_independent_of_rule_order
    (tool_name : string) (tool_input : gmap string string)
    (p1 p2 : gmap string (list string)) (llm_judge : LLMJudge) :
  (forall key, is_bucket_key key ->
     get_rules p1 key ≡ₚ get_rules p2 key) ->
  fst (enforce_permissions tool_name tool_input p1 llm_judge)
  = fst (enforce_permissions tool_name tool_input p2 llm_judge).
Proof.
  intros Hp. rewrite !enforce_decision.
  rewrite (existsb_perm _ _ _ (Hp "deny" ltac:(cbv; tauto))).
  rewrite (existsb_perm _ _ _ (Hp "allow" ltac:(cbv; tauto))).
  reflexivity.
Qed.

Lemma verdict_independent_of_rule_order_witness :
  fst (enforce_permissions "Bash" (input1 "command" "git push")
         (policy ["Bash(ls *)"; "Bash(git *)"] ["Read(.env)"; "Bash(git push)"] []) no_judge)
  = fst (enforce_permissions "Bash" (input1 "command" "git push")
         (policy ["Bash(git *)"; "Bash(ls *)"] ["Bash(git push)"; "Read(.env)"] []) no_judge).
Proof.
  apply verdict_independent_of_rule_order.
  intros key Hk. unfold get_rules, policy.
  destruct Hk as [ -> | [ -> | -> ] ]; vm_compute; constructor.
Defined.

(** The judge is consulted only for calls that an allow rule matched:
    otherwise the whole result, verdict and reason, is the same whatever
    the judge is or says. *)
Theorem judge_irrelevant_without_allow_match
    (tool_name : string) (tool_input : gmap string string)
    (permissions : gmap string (list string)) (j1 j2 : LLMJudge) :
  existsb (PermissionMatcher.matches_rule tool_name tool_input)
    (get_rules permissions "allow") = false ->
  enforce_permissions tool_name tool_input permissions j1
  = enforce_permissions tool_name tool_input permissions j2.
Proof.
  intros Ha. apply first_match_None_existsb in Ha.
  unfold enforce_permissions.
  destruct (if String.eqb tool_name "Bash" then _ else None); [reflexivity|].
  destruct (first_match _ (get_rules permissions "deny")); [reflexivity|].
  rewrite Ha. reflexivity.
Qed.

Lemma judge_irrelevant_without_allow_match_witness :
  enforce_permissions "Write" (input1 "file_path" "notes.txt")
    (policy ["Read"] [] []) (fixed_judge false)
  = enforce_permissions "Write" (input1 "file_path" "notes.txt")
    (policy ["Read"] [] []) no_judge.
Proof. apply judge_irrelevant_without_allow_match. reflexivity. Defined.

(** ** Code-fence stripping of the judge's reply ([LLMJudge.judge]) *)

(** [s.split("\n")] *)
Fixpoint split_nl (l : list ascii) : list (list ascii) :=
  match l with
  | [] => [[]]
  | c :: l' =>
      if is_newline c then [] :: split_nl l'
      else match split_nl l' with
           | x :: rs => (c :: x) :: rs
           | [] => [[c]]
           end
  end.

(** ["\n".join(lines)] *)
Fixpoint join_nl (ls : list (list ascii)) : list ascii :=
  match ls with
  | [] => []
  | [x] => x
  | x :: rs => (x ++ "010"%char :: join_nl rs)%list
  end.

Definition fence : list ascii := ["`"%char; "`"%char; "`"%char].

(** [text = response.content[0].text.strip()]; when it starts with a fence,
    [text = "\n".join(text.split("\n")[1:-1])]. *)
Definition strip_code_fences (response_text : string) : string :=
  let text := strip response_text in
  if startswith text fence
  then of_chars (join_nl (removelast (tl (split_nl text))))
  else of_chars text.

Lemma split_nl_ne (l : list ascii) : split_nl l <> [].
Proof.
  induction l as [|c l IH]; simpl; [discriminate|].
  destruct (is_newline c); [discriminate|]. destruct (split_nl l); discriminate.
Qed.

Lemma split_nl_app_nl (a b : list ascii) :
  split_nl (a ++ "010"%char :: b)%list = (split_nl a ++ split_nl b)%list.
Proof.
  induction a as [|c a IH]; [reflexivity|].
  cbn [app split_nl]. rewrite IH.
  destruct (is_newline c); [reflexivity|].
  destruct (split_nl a) as [|x rs] eqn:E; [exfalso; exact (split_nl_ne a E)|].
  reflexivity.
Qed.

Lemma split_nl_single (a : list ascii) :
  forallb any_nl a = true -> split_nl a = [a].
Proof.
  induction a as [|c a IH]; simpl; [reflexivity|].
  intros H. apply andb_prop in H as [Hc Ha]. unfold any_nl in Hc.
  destruct (is_newline c); [discriminate|]. rewrite (IH Ha). reflexivity.
Qed.

Lemma join_nl_cons_head (c : ascii) (x : list ascii) (rs : list (list ascii)) :
  join_nl ((c :: x) :: rs) = c :: join_nl (x :: rs).
Proof. destruct rs; reflexivity. Qed.

Lemma join_split_nl (l : list ascii) : join_nl (split_nl l) = l.
Proof.
  induction l as [|c l IH]; [reflexivity|]. cbn [split_nl].
  destruct (is_newline c) eqn:Hc.
  - destruct (split_nl l) as [|x rs] eqn:E; [exfalso; exact (split_nl_ne l E)|].
    change (join_nl ([] :: x :: rs)) with ("010"%char :: join_nl (x :: rs)).
    rewrite IH.
    unfold is_newline, ceq in Hc. apply Ascii.eqb_eq in Hc. subst c. reflexivity.
  - destruct (split_nl l) as [|x rs] eqn:E; [exfalso; exact (split_nl_ne l E)|].
    rewrite join_nl_cons_head, IH. reflexivity.
Qed.

Lemma lstrip_spaces (ws l : list ascii) :
  forallb is_space ws = true -> lstrip (ws ++ l)%list = lstrip l.
Proof.
  induction ws as [|w ws IH]; simpl; [reflexivity|].
  intros H. apply andb_prop in H as [Hw Hws]. rewrite Hw. exact (IH Hws).
Qed.

Lemma forallb_rev_true (f : ascii -> bool) (l : list ascii) :
  forallb f l = true -> forallb f (rev l) = true.
Proof.
  rewrite !forallb_forall. intros H x Hx. apply H, in_rev, Hx.
Qed.

Lemma strip_framed (ws1 ws2 : list ascii) (c d : ascii) (mid : list ascii) :
  forallb is_space ws1 = true -> forallb is_space ws2 = true ->
  is_space c = false -> is_space d = false ->
  strip (of_chars (ws1 ++ c :: mid ++ [d] ++ ws2)%list) = (c :: mid ++ [d])%list.
Proof.
  intros H1 H2 Hc Hd. unfold strip, chars, of_chars.
  rewrite list_ascii_of_string_of_list_ascii.
  rewrite lstrip_spaces by exact H1. cbn [lstrip]. rewrite Hc.
  assert (R : rev (c :: mid ++ [d] ++ ws2)%list = (rev ws2 ++ d :: rev (c :: mid))%list).
  { rewrite app_comm_cons, app_assoc, !rev_app_distr. reflexivity. }
  rewrite R, lstrip_spaces by (apply forallb_rev_true; exact H2).
  cbn [lstrip]. rewrite Hd.
  change (rev (d :: rev (c :: mid))) with (rev (rev (c :: mid)) ++ [d])%list.
  rewrite rev_involutive. reflexivity.
Qed.

(** A reply wrapped in a markdown code fence, with any language tag on the
    opening line and any surrounding whitespace, is unwrapped to exactly its
    body, which may itself span several lines. *)
Theorem strip_code_fences_unwraps
    (ws1 ws2 : list ascii) (tag body : string) :
  forallb is_space ws1 = true -> forallb is_space ws2 = true ->
  no_newline tag ->
  strip_code_fences
    (of_chars ws1 ++ "```" ++ tag ++ String "010" body ++ String "010" "```" ++ of_chars ws2)
  = body.
Proof.
  intros H1 H2 Ht.
  assert (E : (of_chars ws1 ++ "```" ++ tag ++ String "010" body ++ String "010" "```"
                 ++ of_chars ws2)
              = of_chars (ws1 ++ "`"%char ::
                   (["`"%char; "`"%char] ++ chars tag ++ "010"%char :: chars body
                    ++ ["010"%char; "`"%char; "`"%char]) ++ ["`"%char] ++ ws2)%list).
  { apply chars_inj. unfold of_chars.
    rewrite !chars_app. unfold chars at 1 6.
    rewrite !list_ascii_of_string_of_list_ascii.
    simpl. rewrite <- !app_assoc. simpl. rewrite <- !app_assoc. reflexivity. }
  unfold strip_code_fences. rewrite E, strip_framed by (reflexivity || assumption).
  assert (F : ("`"%char :: (["`"%char; "`"%char] ++ chars tag ++ "010"%char :: chars body
                ++ ["010"%char; "`"%char; "`"%char]) ++ ["`"%char])%list
              = ((fence ++ chars tag) ++ "010"%char :: chars body ++ "010"%char :: fence)%list).
  { unfold fence. simpl. repeat (rewrite <- app_assoc; simpl). reflexivity. }
  rewrite F.
  rewrite (eq_trans (f_equal (fun l => startswith l fence) (eq_sym (app_assoc _ _ _)))
             (startswith_app _ _)).
  rewrite !split_nl_app_nl.
  rewrite (split_nl_single (fence ++ chars tag)%list) by (simpl; exact Ht).
  rewrite (split_nl_single fence) by reflexivity.
  cbn [tl app]. rewrite removelast_last, join_split_nl, of_chars_chars.
  reflexivity.
Qed.

Lemma strip_code_fences_unwraps_witness :
  strip_code_fences
    (of_chars [" "%char] ++ "```" ++ "json" ++ String "010" ("{" ++ String "010" "}")
       ++ String "010" "```" ++ of_chars ["010"%char])
  = "{" ++ String "010" "}".
Proof.
  apply (strip_code_fences_unwraps [" "%char] ["010"%char] "json" ("{" ++ String "010" "}"));
    reflexivity.
Defined.
